(** * MessagingMessageListFetchJob

    A shallow embedding of
    [packages/twenty-server/src/modules/messaging/message-import-manager/jobs/messaging-message-list-fetch.job.ts]
    and the properties of its [handle] method.

    [handle] is an [async] method whose only effects are calls to six
    injected collaborators and one field assignment on the entity it loaded.
    The embedding makes those effects explicit:

    - every collaborator is a field of [World], giving what the call returns
      or throws, and what it does to the entity it was handed;
    - the invocation keeps the current contents of the one channel object it
      holds ([messageChannel] is a [const] binding in the source), so a
      collaborator that received the reference and mutated the object is seen
      by every later read;
    - every call and every assignment made by [handle] is appended to a
      trace, in program order. *)

From Stdlib Require Import String List ZArith Bool Arith Lia.
Import ListNotations.

Local Open Scope string_scope.
Local Open Scope list_scope.

(** ** Enumerations

    The job imports four enumerations.  The members it names keep their
    names; every further member is carried by its tag. *)

Module MessageChannelSyncStage.
(** Modelled from the spec: the enum is declared in
    message-channel.workspace-entity; 4.4 keys the router by the two pending
    list-fetch stages and any other stage. *)
Inductive t : Type :=
| PARTIAL_MESSAGE_LIST_FETCH_PENDING
| FULL_MESSAGE_LIST_FETCH_PENDING
| OTHER (tag : string).
End MessageChannelSyncStage.

Module ConnectedAccountRefreshAccessTokenExceptionCode.
(** Modelled from the spec: the enum is declared in
    connected-account-refresh-tokens.exception; these are the four reasons of
    the table of 4.3, under the names the [switch] of the inner [catch] gives
    them. *)
Inductive t : Type :=
| TEMPORARY_NETWORK_ERROR
| REFRESH_ACCESS_TOKEN_FAILED
| REFRESH_TOKEN_NOT_FOUND
| PROVIDER_NOT_SUPPORTED.
End ConnectedAccountRefreshAccessTokenExceptionCode.

Module MessageImportDriverExceptionCode.
(** Modelled from the spec: the enum is declared in
    message-import-driver.exception; the three categories of the table of
    4.3, and the categories other drivers raise. *)
Inductive t : Type :=
| TEMPORARY_ERROR
| INSUFFICIENT_PERMISSIONS
| PROVIDER_NOT_SUPPORTED
| OTHER (tag : string).
End MessageImportDriverExceptionCode.

Module MessageImportSyncStep.
(** Modelled from the spec: the enum is declared in
    messaging-import-exception-handler.service; 4.1 (6) names the marker of
    this job, the other jobs have theirs. *)
Inductive t : Type :=
| FULL_OR_PARTIAL_MESSAGE_LIST_FETCH
| OTHER (tag : string).
End MessageImportSyncStep.

(** ** Entities *)

(** Timestamps are milliseconds since the epoch. *)
Definition Timestamp : Type := Z.

Module ConnectedAccount.
(** Modelled from the spec: [ConnectedAccountWorkspaceEntity] is declared in
    another file; 3: a mutable [accessToken] and identity fields.  The job
    reads [id] and writes [accessToken]; [columns] stands for the remaining
    columns. *)
Record t : Type := mk
  { id : string;
    accessToken : string;
    columns : list (string * string) }.

(** [account.accessToken = token] *)
Definition set_accessToken (token : string) (account : t) : t :=
  {| id := id account;
     accessToken := token;
     columns := columns account |}.
End ConnectedAccount.

Module MessageChannel.
(** Modelled from the spec: [MessageChannelWorkspaceEntity] is declared in
    message-channel.workspace-entity; 3: identity, [syncStage],
    [syncStageStartedAt], [throttleFailureCount] (a non-negative integer),
    one connected account and the message folders.  [connectedAccountId] is
    the column the inner [catch] reads. *)
Record t : Type := mk
  { id : string;
    connectedAccountId : string;
    syncStage : MessageChannelSyncStage.t;
    syncStageStartedAt : Timestamp;
    throttleFailureCount : nat;
    connectedAccount : ConnectedAccount.t;
    messageFolders : list string }.

(** Replaces the contents of the account object the channel points to. *)
Definition set_connectedAccount (account : ConnectedAccount.t) (channel : t) : t :=
  {| id := id channel;
     connectedAccountId := connectedAccountId channel;
     syncStage := syncStage channel;
     syncStageStartedAt := syncStageStartedAt channel;
     throttleFailureCount := throttleFailureCount channel;
     connectedAccount := account;
     messageFolders := messageFolders channel |}.
End MessageChannel.

Module JobData.
(** [MessagingMessageListFetchJobData] *)
Record t : Type := mk
  { messageChannelId : string;
    workspaceId : string }.
End JobData.

Module TrackInput.
(** The object literal handed to [messagingMonitoringService.track]; a
    property the literal leaves out is [None]. *)
Record t : Type := mk
  { eventName : string;
    workspaceId : string;
    connectedAccountId : option string;
    messageChannelId : option string;
    message : option string }.
End TrackInput.

(** ** Thrown values *)

(** The value of [error.code], as far as [===] against the members of
    [ConnectedAccountRefreshAccessTokenExceptionCode] can tell. *)
Inductive CodeValue : Type :=
| RefreshCode (code : ConnectedAccountRefreshAccessTokenExceptionCode.t)
| ForeignCode (text : string)
| UndefinedCode.

(** An error object thrown by a collaborator: its constructor name and the
    three properties the job reads. *)
Record ErrorObject : Type := mkError
  { error_class : string;
    error_code : CodeValue;
    error_message : string;
    error_reason : option string }.

(** What travels up to the outer [catch]: either the very object a
    collaborator threw, or an object the job built with
    [new MessageImportDriverException(message, code)]. *)
Inductive Exception : Type :=
| Thrown (error : ErrorObject)
| MessageImportDriverException (message : string) (code : MessageImportDriverExceptionCode.t).

(** The outcome of an awaited call. *)
Inductive Result (E A : Type) : Type :=
| Ok (a : A)
| Raise (e : E).
Arguments Ok {E A} a.
Arguments Raise {E A} e.

(** ** Trace *)

(** One entry per effect of [handle], with the arguments of the call as they
    were when it was made. *)
Inductive Action : Type :=
| Track (input : TrackInput.t)
| GetRepository (name : string)
| FindOne (whereId : string) (relations : list string)
| IsThrottled (syncStageStartedAt : Timestamp) (throttleFailureCount : nat)
| RefreshAndSaveTokens (account : ConnectedAccount.t) (workspaceId : string)
| AssignAccessToken (token : string)
| PartialProcessMessageListFetch
    (channel : MessageChannel.t) (account : ConnectedAccount.t) (workspaceId : string)
| FullProcessMessageListFetch (channel : MessageChannel.t) (workspaceId : string)
| HandleDriverException
    (error : Exception) (step : MessageImportSyncStep.t)
    (channel : MessageChannel.t) (workspaceId : string).

(** ** Collaborators *)

(** Modelled from the spec: the services are declared in other files; 6
    gives their contracts.  A field says how the collaborator behaves in one
    invocation: what the awaited call resolves to or throws and, for a
    collaborator that is handed an entity, the contents it leaves the entity
    with. *)
Record World : Type := mkWorld
  { (** [twentyORMManager.getRepository(name)] *)
    getRepository : string -> Result ErrorObject unit;
    (** [messageChannelRepository.findOne({ where: { id }, relations })] *)
    findOne : string -> list string -> Result ErrorObject (option MessageChannel.t);
    (** [isThrottled(syncStageStartedAt, throttleFailureCount)], with the
        clock reading of this invocation *)
    isThrottled : Timestamp -> nat -> bool;
    (** [connectedAccountRefreshTokensService.refreshAndSaveTokens] *)
    refreshAndSaveTokens :
      ConnectedAccount.t -> string -> ConnectedAccount.t * Result ErrorObject string;
    (** [messagingPartialMessageListFetchService.processMessageListFetch] *)
    partialProcessMessageListFetch :
      MessageChannel.t -> ConnectedAccount.t -> string ->
      MessageChannel.t * Result ErrorObject unit;
    (** [messagingFullMessageListFetchService.processMessageListFetch] *)
    fullProcessMessageListFetch :
      MessageChannel.t -> string -> MessageChannel.t * Result ErrorObject unit;
    (** [messageImportErrorHandlerService.handleDriverException] *)
    handleDriverException :
      Exception -> MessageImportSyncStep.t -> MessageChannel.t -> string ->
      MessageChannel.t * Result ErrorObject unit;
    (** the text a template literal renders a refresh code as *)
    codeText : ConnectedAccountRefreshAccessTokenExceptionCode.t -> string }.

(** ** The monad of the guarded region

    State: the loaded channel object and the trace.  The state outlives a
    [throw]: what was mutated or logged before the exception stays so. *)

Record Run : Type := mkRun
  { channel : MessageChannel.t;
    trace : list Action }.

Definition Job (E A : Type) : Type := Run -> Run * Result E A.

Definition ret {E A} (a : A) : Job E A := fun s => (s, Ok a).

Definition bind {E A B} (m : Job E A) (k : A -> Job E B) : Job E B :=
  fun s =>
    match m s with
    | (s', Ok a) => k a s'
    | (s', Raise e) => (s', Raise e)
    end.

Definition throw {E A} (e : E) : Job E A := fun s => (s, Raise e).

(** [try { body } catch (error) { handler }] *)
Definition try_catch {E E' A} (body : Job E A) (handler : E -> Job E' A) : Job E' A :=
  fun s =>
    match body s with
    | (s', Ok a) => (s', Ok a)
    | (s', Raise e) => handler e s'
    end.

Declare Scope job_scope.
Delimit Scope job_scope with job.
Notation "x <- m ;; k" := (bind m (fun x => k))
  (at level 61, m at next level, right associativity) : job_scope.
Notation "m ;; k" := (bind m (fun _ => k))
  (at level 61, right associativity) : job_scope.
Local Open Scope job_scope.

Definition log {E} (a : Action) : Job E unit :=
  fun s => ({| channel := channel s; trace := trace s ++ [a] |}, Ok tt).

(** Reads the [messageChannel] binding. *)
Definition messageChannel {E} : Job E MessageChannel.t :=
  fun s => (s, Ok (channel s)).

(** Modelled from the spec: [MessagingMonitoringService] is declared in
    another file; [await this.messagingMonitoringService.track(input)]
    records the event and resolves (4.1, step 1: failure to emit is not a
    job failure). *)
Definition track {E} (input : TrackInput.t) : Job E unit :=
  log (Track input).

(** ** The job *)

(** The outcome of the promise [handle] returns. *)
Inductive Settlement : Type :=
| Resolved
| Rejected (e : Exception).

(** One invocation: the trace, the outcome, and the final contents of the
    channel object when one was loaded. *)
Record Invocation : Type := mkInvocation
  { events : list Action;
    settled : Settlement;
    entity : option MessageChannel.t }.

Section Job.

Variable w : World.

(** A collaborator that throws: the thrown object travels up as it is. *)
Definition await {A} (call : Job ErrorObject A) : Job Exception A :=
  try_catch call (fun error => throw (Thrown error)).

(** [isThrottled(syncStageStartedAt, throttleFailureCount)] *)
Definition call_isThrottled {E}
    (syncStageStartedAt : Timestamp) (throttleFailureCount : nat) : Job E bool :=
  log (IsThrottled syncStageStartedAt throttleFailureCount) ;;
  ret (isThrottled w syncStageStartedAt throttleFailureCount).

(** [await this.connectedAccountRefreshTokensService.refreshAndSaveTokens(
      messageChannel.connectedAccount, workspaceId)] *)
Definition call_refreshAndSaveTokens
    (account : ConnectedAccount.t) (workspaceId : string) : Job ErrorObject string :=
  fun s =>
    let (account', result) := refreshAndSaveTokens w account workspaceId in
    ({| channel := MessageChannel.set_connectedAccount account' (channel s);
        trace := trace s ++ [RefreshAndSaveTokens account workspaceId] |},
     result).

(** [messageChannel.connectedAccount.accessToken = token] *)
Definition assign_accessToken {E} (token : string) : Job E unit :=
  fun s =>
    ({| channel :=
          MessageChannel.set_connectedAccount
            (ConnectedAccount.set_accessToken token
               (MessageChannel.connectedAccount (channel s)))
            (channel s);
        trace := trace s ++ [AssignAccessToken token] |},
     Ok tt).

(** [await this.messagingPartialMessageListFetchService.processMessageListFetch(
      messageChannel, messageChannel.connectedAccount, workspaceId)] *)
Definition call_partialProcessMessageListFetch
    (c : MessageChannel.t) (account : ConnectedAccount.t) (workspaceId : string)
  : Job ErrorObject unit :=
  fun s =>
    let (c', result) := partialProcessMessageListFetch w c account workspaceId in
    ({| channel := c';
        trace := trace s ++ [PartialProcessMessageListFetch c account workspaceId] |},
     result).

(** [await this.messagingFullMessageListFetchService.processMessageListFetch(
      messageChannel, workspaceId)] *)
Definition call_fullProcessMessageListFetch
    (c : MessageChannel.t) (workspaceId : string) : Job ErrorObject unit :=
  fun s =>
    let (c', result) := fullProcessMessageListFetch w c workspaceId in
    ({| channel := c';
        trace := trace s ++ [FullProcessMessageListFetch c workspaceId] |},
     result).

(** [await this.messageImportErrorHandlerService.handleDriverException(
      error, step, messageChannel, workspaceId)] *)
Definition call_handleDriverException
    (error : Exception) (step : MessageImportSyncStep.t)
    (c : MessageChannel.t) (workspaceId : string) : Job ErrorObject unit :=
  fun s =>
    let (c', result) := handleDriverException w error step c workspaceId in
    ({| channel := c';
        trace := trace s ++ [HandleDriverException error step c workspaceId] |},
     result).

(** [error.reason ?? ''] *)
Definition reason_or_empty (error : ErrorObject) : string :=
  match error_reason error with
  | Some reason => reason
  | None => ""
  end.

(** Lines 93-121: the inner [catch (error) { switch (error.code) ... }]. *)
Definition refreshErrorTranslator
    (workspaceId : string) (error : ErrorObject) : Job Exception unit :=
  match error_code error with
  | RefreshCode ConnectedAccountRefreshAccessTokenExceptionCode.TEMPORARY_NETWORK_ERROR =>
      throw (MessageImportDriverException
               (error_message error)
               MessageImportDriverExceptionCode.TEMPORARY_ERROR)
  | RefreshCode (ConnectedAccountRefreshAccessTokenExceptionCode.REFRESH_ACCESS_TOKEN_FAILED as code)
  | RefreshCode (ConnectedAccountRefreshAccessTokenExceptionCode.REFRESH_TOKEN_NOT_FOUND as code) =>
      c <- messageChannel ;;
      track {| TrackInput.eventName := "refresh_token.error.insufficient_permissions";
               TrackInput.workspaceId := workspaceId;
               TrackInput.connectedAccountId := Some (MessageChannel.connectedAccountId c);
               TrackInput.messageChannelId := Some (MessageChannel.id c);
               TrackInput.message :=
                 Some (codeText w code ++ ": " ++ reason_or_empty error)%string |} ;;
      throw (MessageImportDriverException
               (error_message error)
               MessageImportDriverExceptionCode.INSUFFICIENT_PERMISSIONS)
  | RefreshCode ConnectedAccountRefreshAccessTokenExceptionCode.PROVIDER_NOT_SUPPORTED =>
      throw (MessageImportDriverException
               (error_message error)
               MessageImportDriverExceptionCode.PROVIDER_NOT_SUPPORTED)
  | ForeignCode _ | UndefinedCode =>
      throw (Thrown error)
  end.

(** Lines 87-121: the inner [try] with its [catch]. *)
Definition refreshAccessToken (workspaceId : string) : Job Exception unit :=
  try_catch
    (c <- messageChannel ;;
     token <- call_refreshAndSaveTokens (MessageChannel.connectedAccount c) workspaceId ;;
     assign_accessToken token)
    (refreshErrorTranslator workspaceId).

(** Lines 123-171: [switch (messageChannel.syncStage)]. *)
Definition stageRouter (workspaceId : string) : Job Exception unit :=
  c <- messageChannel ;;
  match MessageChannel.syncStage c with
  | MessageChannelSyncStage.PARTIAL_MESSAGE_LIST_FETCH_PENDING =>
      track {| TrackInput.eventName := "partial_message_list_fetch.started";
               TrackInput.workspaceId := workspaceId;
               TrackInput.connectedAccountId :=
                 Some (ConnectedAccount.id (MessageChannel.connectedAccount c));
               TrackInput.messageChannelId := Some (MessageChannel.id c);
               TrackInput.message := None |} ;;
      await (call_partialProcessMessageListFetch
               c (MessageChannel.connectedAccount c) workspaceId) ;;
      c' <- messageChannel ;;
      track {| TrackInput.eventName := "partial_message_list_fetch.completed";
               TrackInput.workspaceId := workspaceId;
               TrackInput.connectedAccountId :=
                 Some (ConnectedAccount.id (MessageChannel.connectedAccount c'));
               TrackInput.messageChannelId := Some (MessageChannel.id c');
               TrackInput.message := None |}
  | MessageChannelSyncStage.FULL_MESSAGE_LIST_FETCH_PENDING =>
      track {| TrackInput.eventName := "full_message_list_fetch.started";
               TrackInput.workspaceId := workspaceId;
               TrackInput.connectedAccountId :=
                 Some (ConnectedAccount.id (MessageChannel.connectedAccount c));
               TrackInput.messageChannelId := Some (MessageChannel.id c);
               TrackInput.message := None |} ;;
      await (call_fullProcessMessageListFetch c workspaceId) ;;
      c' <- messageChannel ;;
      track {| TrackInput.eventName := "full_message_list_fetch.completed";
               TrackInput.workspaceId := workspaceId;
               TrackInput.connectedAccountId :=
                 Some (ConnectedAccount.id (MessageChannel.connectedAccount c'));
               TrackInput.messageChannelId := Some (MessageChannel.id c');
               TrackInput.message := None |}
  | MessageChannelSyncStage.OTHER _ =>
      ret tt
  end.

(** Lines 78-171: the body of the outer [try].  The [return] of the
    throttled branch leaves [handle]: nothing follows the [try] statement. *)
Definition guarded (workspaceId : string) : Job Exception unit :=
  c <- messageChannel ;;
  throttled <- call_isThrottled
                 (MessageChannel.syncStageStartedAt c)
                 (MessageChannel.throttleFailureCount c) ;;
  if throttled then ret tt
  else
    refreshAccessToken workspaceId ;;
    stageRouter workspaceId.

(** Lines 77-179: the outer [try] with its [catch]. *)
Definition guardedWithHandler (workspaceId : string) : Job Exception unit :=
  try_catch
    (guarded workspaceId)
    (fun error =>
       c <- messageChannel ;;
       await (call_handleDriverException
                error MessageImportSyncStep.FULL_OR_PARTIAL_MESSAGE_LIST_FETCH
                c workspaceId)).

Definition settle (result : Result Exception unit) : Settlement :=
  match result with
  | Ok _ => Resolved
  | Raise e => Rejected e
  end.

(** Lines 46-180. *)
Definition handle (data : JobData.t) : Invocation :=
  let messageChannelId := JobData.messageChannelId data in
  let workspaceId := JobData.workspaceId data in
  let triggered :=
    [ Track {| TrackInput.eventName := "message_list_fetch_job.triggered";
               TrackInput.workspaceId := workspaceId;
               TrackInput.connectedAccountId := None;
               TrackInput.messageChannelId := Some messageChannelId;
               TrackInput.message := None |};
      GetRepository "messageChannel" ] in
  match getRepository w "messageChannel" with
  | Raise e =>
      {| events := triggered; settled := Rejected (Thrown e); entity := None |}
  | Ok _ =>
      let relations := ["connectedAccount"; "messageFolders"] in
      let looked_up := triggered ++ [FindOne messageChannelId relations] in
      match findOne w messageChannelId relations with
      | Raise e =>
          {| events := looked_up; settled := Rejected (Thrown e); entity := None |}
      | Ok None =>
          {| events :=
               looked_up ++
               [ Track {| TrackInput.eventName :=
                            "message_list_fetch_job.error.message_channel_not_found";
                          TrackInput.workspaceId := workspaceId;
                          TrackInput.connectedAccountId := None;
                          TrackInput.messageChannelId := Some messageChannelId;
                          TrackInput.message := None |} ];
             settled := Resolved;
             entity := None |}
      | Ok (Some loaded) =>
          let (s, result) :=
            guardedWithHandler workspaceId {| channel := loaded; trace := looked_up |} in
          {| events := trace s; settled := settle result; entity := Some (channel s) |}
      end
  end.

End Job.

(** ** Reading a trace *)

(** The events of the monitoring sink, by the names [handle] gives them. *)
Definition jobTriggered (data : JobData.t) : TrackInput.t :=
  {| TrackInput.eventName := "message_list_fetch_job.triggered";
     TrackInput.workspaceId := JobData.workspaceId data;
     TrackInput.connectedAccountId := None;
     TrackInput.messageChannelId := Some (JobData.messageChannelId data);
     TrackInput.message := None |}.

Definition channelNotFound (data : JobData.t) : TrackInput.t :=
  {| TrackInput.eventName := "message_list_fetch_job.error.message_channel_not_found";
     TrackInput.workspaceId := JobData.workspaceId data;
     TrackInput.connectedAccountId := None;
     TrackInput.messageChannelId := Some (JobData.messageChannelId data);
     TrackInput.message := None |}.

(** The four lifecycle events of the stage router share their shape. *)
Definition lifecycle (name workspaceId : string) (c : MessageChannel.t) : TrackInput.t :=
  {| TrackInput.eventName := name;
     TrackInput.workspaceId := workspaceId;
     TrackInput.connectedAccountId :=
       Some (ConnectedAccount.id (MessageChannel.connectedAccount c));
     TrackInput.messageChannelId := Some (MessageChannel.id c);
     TrackInput.message := None |}.

Definition insufficientPermissions
    (w : World) (workspaceId : string) (c : MessageChannel.t)
    (code : ConnectedAccountRefreshAccessTokenExceptionCode.t) (error : ErrorObject)
  : TrackInput.t :=
  {| TrackInput.eventName := "refresh_token.error.insufficient_permissions";
     TrackInput.workspaceId := workspaceId;
     TrackInput.connectedAccountId := Some (MessageChannel.connectedAccountId c);
     TrackInput.messageChannelId := Some (MessageChannel.id c);
     TrackInput.message :=
       Some (codeText w code ++ ": " ++ reason_or_empty error)%string |}.

(** What [handle] does before it knows whether the channel exists. *)
Definition lookup (data : JobData.t) : list Action :=
  [ Track (jobTriggered data);
    GetRepository "messageChannel";
    FindOne (JobData.messageChannelId data) ["connectedAccount"; "messageFolders"] ].

(** The channel lookup resolved to [found]. *)
Definition looked_up (w : World) (data : JobData.t) (found : option MessageChannel.t) : Prop :=
  getRepository w "messageChannel" = Ok tt /\
  findOne w (JobData.messageChannelId data) ["connectedAccount"; "messageFolders"]
  = Ok found.

Definition is_track (a : Action) : bool :=
  match a with Track _ => true | _ => false end.

Definition is_event (name : string) (a : Action) : bool :=
  match a with
  | Track input => String.eqb (TrackInput.eventName input) name
  | _ => false
  end.

Definition is_throttle_check (a : Action) : bool :=
  match a with IsThrottled _ _ => true | _ => false end.

Definition is_refresh (a : Action) : bool :=
  match a with RefreshAndSaveTokens _ _ => true | _ => false end.

Definition is_assignment (a : Action) : bool :=
  match a with AssignAccessToken _ => true | _ => false end.

Definition is_partial_fetch (a : Action) : bool :=
  match a with PartialProcessMessageListFetch _ _ _ => true | _ => false end.

Definition is_full_fetch (a : Action) : bool :=
  match a with FullProcessMessageListFetch _ _ => true | _ => false end.

Definition is_fetch (a : Action) : bool :=
  is_partial_fetch a || is_full_fetch a.

Definition is_failure_handler (a : Action) : bool :=
  match a with HandleDriverException _ _ _ _ => true | _ => false end.

(** How many entries of a trace satisfy [p]. *)
Definition count (p : Action -> bool) (t : list Action) : nat :=
  length (filter p t).

(** What one entry of the trace does to the channel object, whose contents
    are [c] when the entry is made: a collaborator that is handed the object
    does to it what [w] says, the assignment replaces the token, and nothing
    else touches it. *)
Definition effect (w : World) (a : Action) (c : MessageChannel.t) : MessageChannel.t :=
  match a with
  | Track _ | GetRepository _ | FindOne _ _ | IsThrottled _ _ => c
  | RefreshAndSaveTokens _ workspaceId =>
      MessageChannel.set_connectedAccount
        (fst (refreshAndSaveTokens w (MessageChannel.connectedAccount c) workspaceId)) c
  | AssignAccessToken token =>
      MessageChannel.set_connectedAccount
        (ConnectedAccount.set_accessToken token (MessageChannel.connectedAccount c)) c
  | PartialProcessMessageListFetch _ _ workspaceId =>
      fst (partialProcessMessageListFetch
             w c (MessageChannel.connectedAccount c) workspaceId)
  | FullProcessMessageListFetch _ workspaceId =>
      fst (fullProcessMessageListFetch w c workspaceId)
  | HandleDriverException error step _ workspaceId =>
      fst (handleDriverException w error step c workspaceId)
  end.

(** The contents of the channel object after a trace. *)
Definition contents_after (w : World) (t : list Action) (loaded : MessageChannel.t)
  : MessageChannel.t :=
  fold_left (fun c a => effect w a c) t loaded.

(** ** Sample invocations *)

Module Sample.

Definition account : ConnectedAccount.t :=
  {| ConnectedAccount.id := "acc-1";
     ConnectedAccount.accessToken := "stale";
     ConnectedAccount.columns := [("handle", "ada@example.com")] |}.

Definition channel_in (stage : MessageChannelSyncStage.t) : MessageChannel.t :=
  {| MessageChannel.id := "chan-1";
     MessageChannel.connectedAccountId := "acc-1";
     MessageChannel.syncStage := stage;
     MessageChannel.syncStageStartedAt := 1000%Z;
     MessageChannel.throttleFailureCount := 2;
     MessageChannel.connectedAccount := account;
     MessageChannel.messageFolders := ["INBOX"] |}.

Definition data : JobData.t :=
  {| JobData.messageChannelId := "chan-1"; JobData.workspaceId := "ws-1" |}.

Definition codeName (code : ConnectedAccountRefreshAccessTokenExceptionCode.t) : string :=
  match code with
  | ConnectedAccountRefreshAccessTokenExceptionCode.TEMPORARY_NETWORK_ERROR =>
      "TEMPORARY_NETWORK_ERROR"
  | ConnectedAccountRefreshAccessTokenExceptionCode.REFRESH_ACCESS_TOKEN_FAILED =>
      "REFRESH_ACCESS_TOKEN_FAILED"
  | ConnectedAccountRefreshAccessTokenExceptionCode.REFRESH_TOKEN_NOT_FOUND =>
      "REFRESH_TOKEN_NOT_FOUND"
  | ConnectedAccountRefreshAccessTokenExceptionCode.PROVIDER_NOT_SUPPORTED =>
      "PROVIDER_NOT_SUPPORTED"
  end.

(** A fetch strategy that moves the channel on to the import stage. *)
Definition advance (c : MessageChannel.t) : MessageChannel.t :=
  {| MessageChannel.id := MessageChannel.id c;
     MessageChannel.connectedAccountId := MessageChannel.connectedAccountId c;
     MessageChannel.syncStage := MessageChannelSyncStage.OTHER "MESSAGES_IMPORT_PENDING";
     MessageChannel.syncStageStartedAt := MessageChannel.syncStageStartedAt c;
     MessageChannel.throttleFailureCount := MessageChannel.throttleFailureCount c;
     MessageChannel.connectedAccount := MessageChannel.connectedAccount c;
     MessageChannel.messageFolders := MessageChannel.messageFolders c |}.

(** A failure handler that counts the failure on the channel. *)
Definition penalise (c : MessageChannel.t) : MessageChannel.t :=
  {| MessageChannel.id := MessageChannel.id c;
     MessageChannel.connectedAccountId := MessageChannel.connectedAccountId c;
     MessageChannel.syncStage := MessageChannel.syncStage c;
     MessageChannel.syncStageStartedAt := MessageChannel.syncStageStartedAt c;
     MessageChannel.throttleFailureCount := S (MessageChannel.throttleFailureCount c);
     MessageChannel.connectedAccount := MessageChannel.connectedAccount c;
     MessageChannel.messageFolders := MessageChannel.messageFolders c |}.

(** A world built from the four things the sample runs vary: what the store
    finds, whether the guard skips, what the refresh and the fetch do. *)
Definition world
    (found : option MessageChannel.t) (throttled : bool)
    (refreshed : Result ErrorObject string) (fetched : Result ErrorObject unit) : World :=
  {| getRepository := fun _ => Ok tt;
     findOne := fun _ _ => Ok found;
     isThrottled := fun _ _ => throttled;
     refreshAndSaveTokens := fun account _ => (account, refreshed);
     partialProcessMessageListFetch := fun c _ _ => (advance c, fetched);
     fullProcessMessageListFetch := fun c _ => (advance c, fetched);
     handleDriverException := fun _ _ c _ => (penalise c, Ok tt);
     codeText := codeName |}.

Definition network_down : ErrorObject :=
  {| error_class := "ConnectedAccountRefreshAccessTokenException";
     error_code :=
       RefreshCode ConnectedAccountRefreshAccessTokenExceptionCode.TEMPORARY_NETWORK_ERROR;
     error_message := "socket hang up";
     error_reason := None |}.

Definition token_revoked : ErrorObject :=
  {| error_class := "ConnectedAccountRefreshAccessTokenException";
     error_code :=
       RefreshCode ConnectedAccountRefreshAccessTokenExceptionCode.REFRESH_ACCESS_TOKEN_FAILED;
     error_message := "refresh failed";
     error_reason := Some "invalid_grant" |}.

Definition quota : ErrorObject :=
  {| error_class := "Error";
     error_code := UndefinedCode;
     error_message := "rate limit exceeded";
     error_reason := None |}.

Definition pending_partial : MessageChannel.t :=
  channel_in MessageChannelSyncStage.PARTIAL_MESSAGE_LIST_FETCH_PENDING.

Definition pending_full : MessageChannel.t :=
  channel_in MessageChannelSyncStage.FULL_MESSAGE_LIST_FETCH_PENDING.

Definition failed : MessageChannel.t :=
  channel_in (MessageChannelSyncStage.OTHER "FAILED").

(** The store has no such channel. *)
Definition missing : World := world None false (Ok "fresh") (Ok tt).

(** The guard skips. *)
Definition cooling_down : World := world (Some pending_partial) true (Ok "fresh") (Ok tt).

(** A partial fetch that goes through. *)
Definition partial_run : World := world (Some pending_partial) false (Ok "fresh") (Ok tt).

(** A full fetch that hits the quota of the provider. *)
Definition full_run_over_quota : World :=
  world (Some pending_full) false (Ok "fresh") (Raise quota).

(** The refresh service cannot reach the provider. *)
Definition offline : World := world (Some pending_full) false (Raise network_down) (Ok tt).

(** The provider revoked the refresh token. *)
Definition revoked : World := world (Some pending_full) false (Raise token_revoked) (Ok tt).

(** A channel whose sync has failed for good. *)
Definition idle : World := world (Some failed) false (Ok "fresh") (Ok tt).

End Sample.

(** ** The stations of an invocation *)

(** The state in which the guarded region starts. *)
Definition at_guard (data : JobData.t) (loaded : MessageChannel.t) : Run :=
  {| channel := loaded; trace := lookup data |}.

(** The call of the throttle guard on the loaded channel. *)
Definition guardCheck (loaded : MessageChannel.t) : Action :=
  IsThrottled (MessageChannel.syncStageStartedAt loaded)
              (MessageChannel.throttleFailureCount loaded).

(** The channel was found and the throttle guard let it through. *)
Definition passes_guard (w : World) (data : JobData.t) (loaded : MessageChannel.t) : Prop :=
  looked_up w data (Some loaded) /\
  isThrottled w (MessageChannel.syncStageStartedAt loaded)
                (MessageChannel.throttleFailureCount loaded) = false.

(** The state in which step 4, the credential refresh, starts. *)
Definition at_refresh (data : JobData.t) (loaded : MessageChannel.t) : Run :=
  {| channel := loaded; trace := lookup data ++ [guardCheck loaded] |}.

(** The call of the refresh service on the account of the loaded channel. *)
Definition refreshCall (data : JobData.t) (loaded : MessageChannel.t) : Action :=
  RefreshAndSaveTokens (MessageChannel.connectedAccount loaded) (JobData.workspaceId data).

(** The refresh service left the account as [account'] and failed with
    [error]. *)
Definition refresh_fails
    (w : World) (data : JobData.t) (loaded : MessageChannel.t)
    (account' : ConnectedAccount.t) (error : ErrorObject) : Prop :=
  refreshAndSaveTokens w (MessageChannel.connectedAccount loaded) (JobData.workspaceId data)
  = (account', Raise error).

(** The invocation reaches the stage router: the channel was found, the
    guard let it through, and the refresh service left the account as
    [account'] and resolved to [token]. *)
Definition reaches_router
    (w : World) (data : JobData.t) (loaded : MessageChannel.t)
    (account' : ConnectedAccount.t) (token : string) : Prop :=
  passes_guard w data loaded /\
  refreshAndSaveTokens w (MessageChannel.connectedAccount loaded) (JobData.workspaceId data)
  = (account', Ok token).

(** The channel object as the stage router finds it. *)
Definition refreshed
    (loaded : MessageChannel.t) (account' : ConnectedAccount.t) (token : string)
  : MessageChannel.t :=
  MessageChannel.set_connectedAccount
    (ConnectedAccount.set_accessToken token account') loaded.

(** The trace up to the stage router. *)
Definition before_router
    (data : JobData.t) (loaded : MessageChannel.t) (token : string) : list Action :=
  lookup data ++ [guardCheck loaded; refreshCall data loaded; AssignAccessToken token].

(** The call that hands [error] and the channel object, as it is then, to
    the failure handler. *)
Definition forwarded (data : JobData.t) (error : Exception) (c : MessageChannel.t) : Action :=
  HandleDriverException
    error MessageImportSyncStep.FULL_OR_PARTIAL_MESSAGE_LIST_FETCH
    c (JobData.workspaceId data).

(** What [handle] settles to once the failure handler has been called. *)
Definition after_handler (handled : Result ErrorObject unit) : Settlement :=
  match handled with
  | Ok _ => Resolved
  | Raise e => Rejected (Thrown e)
  end.

(** The refresh codes of the insufficient-permissions row. *)
Definition lacks_permission (code : CodeValue) : bool :=
  match code with
  | RefreshCode ConnectedAccountRefreshAccessTokenExceptionCode.REFRESH_ACCESS_TOKEN_FAILED
  | RefreshCode ConnectedAccountRefreshAccessTokenExceptionCode.REFRESH_TOKEN_NOT_FOUND => true
  | _ => false
  end.

(** Two channel objects that differ in the access token of their account at
    most. *)
Definition same_but_accessToken (c c' : MessageChannel.t) : Prop :=
  MessageChannel.id c' = MessageChannel.id c /\
  MessageChannel.connectedAccountId c' = MessageChannel.connectedAccountId c /\
  MessageChannel.syncStage c' = MessageChannel.syncStage c /\
  MessageChannel.syncStageStartedAt c' = MessageChannel.syncStageStartedAt c /\
  MessageChannel.throttleFailureCount c' = MessageChannel.throttleFailureCount c /\
  MessageChannel.messageFolders c' = MessageChannel.messageFolders c /\
  ConnectedAccount.id (MessageChannel.connectedAccount c')
  = ConnectedAccount.id (MessageChannel.connectedAccount c) /\
  ConnectedAccount.columns (MessageChannel.connectedAccount c')
  = ConnectedAccount.columns (MessageChannel.connectedAccount c).

(** Collaborators that leave the objects they are handed as they found
    them. *)
Definition inert (w : World) : Prop :=
  (forall account workspaceId,
      fst (refreshAndSaveTokens w account workspaceId) = account) /\
  (forall c account workspaceId,
      fst (partialProcessMessageListFetch w c account workspaceId) = c) /\
  (forall c workspaceId,
      fst (fullProcessMessageListFetch w c workspaceId) = c) /\
  (forall error step c workspaceId,
      fst (handleDriverException w error step c workspaceId) = c).

(** The delegated calls of the stage router. *)
Definition partialCall (data : JobData.t) (c : MessageChannel.t) : Action :=
  PartialProcessMessageListFetch
    c (MessageChannel.connectedAccount c) (JobData.workspaceId data).

Definition fullCall (data : JobData.t) (c : MessageChannel.t) : Action :=
  FullProcessMessageListFetch c (JobData.workspaceId data).

(** The partial-fetch strategy, called by the router on [c], leaves the
    channel as [c'] with [outcome]; likewise for the full-fetch strategy. *)
Definition partial_fetch_gives
    (w : World) (data : JobData.t) (c c' : MessageChannel.t)
    (outcome : Result ErrorObject unit) : Prop :=
  partialProcessMessageListFetch
    w c (MessageChannel.connectedAccount c) (JobData.workspaceId data)
  = (c', outcome).

Definition full_fetch_gives
    (w : World) (data : JobData.t) (c c' : MessageChannel.t)
    (outcome : Result ErrorObject unit) : Prop :=
  fullProcessMessageListFetch w c (JobData.workspaceId data) = (c', outcome).

(** What the failure handler answers when it is handed [error] and [c]. *)
Definition handled
    (w : World) (data : JobData.t) (error : Exception) (c : MessageChannel.t)
  : MessageChannel.t * Result ErrorObject unit :=
  handleDriverException
    w error MessageImportSyncStep.FULL_OR_PARTIAL_MESSAGE_LIST_FETCH
    c (JobData.workspaceId data).

(** ** Further readings of an invocation *)

(** The workspace id an entry of the trace carries, when it carries one, is
    [workspaceId]. *)
Definition carries_workspace (workspaceId : string) (a : Action) : Prop :=
  match a with
  | Track input => TrackInput.workspaceId input = workspaceId
  | RefreshAndSaveTokens _ ws
  | PartialProcessMessageListFetch _ _ ws
  | FullProcessMessageListFetch _ ws
  | HandleDriverException _ _ _ ws => ws = workspaceId
  | GetRepository _ | FindOne _ _ | IsThrottled _ _ | AssignAccessToken _ => True
  end.

(** The store throws [e]: from [getRepository], or from [findOne] once the
    repository is there. *)
Definition store_throws (w : World) (data : JobData.t) (e : ErrorObject) : Prop :=
  getRepository w "messageChannel" = Raise e \/
  (getRepository w "messageChannel" = Ok tt /\
   findOne w (JobData.messageChannelId data) ["connectedAccount"; "messageFolders"]
   = Raise e).

(** The failure handler resolves whatever it is handed. *)
Definition handler_resolves (w : World) : Prop :=
  forall error step c workspaceId,
    snd (handleDriverException w error step c workspaceId) = Ok tt.

(** The names of the four lifecycle events of the stage router. *)
Definition partialStarted : string := "partial_message_list_fetch.started".
Definition partialCompleted : string := "partial_message_list_fetch.completed".
Definition fullStarted : string := "full_message_list_fetch.started".
Definition fullCompleted : string := "full_message_list_fetch.completed".

Definition is_lifecycle (a : Action) : bool :=
  is_event partialStarted a || is_event partialCompleted a ||
  is_event fullStarted a || is_event fullCompleted a.

(** Every entry of [t] that satisfies [q] comes after an entry that
    satisfies [p]. *)
Definition only_after (p q : Action -> bool) (t : list Action) : Prop :=
  forall before a after,
    t = before ++ a :: after -> q a = true -> existsb p before = true.

(** The same, decided along the trace; [seen] says whether an entry that
    satisfies [p] has gone by. *)
Fixpoint gated (p q : Action -> bool) (seen : bool) (t : list Action) : bool :=
  match t with
  | [] => true
  | a :: rest => implb (q a) seen && gated p q (seen || p a) rest
  end.

Module Outage.

Definition connection_lost : ErrorObject :=
  {| error_class := "QueryFailedError";
     error_code := ForeignCode "ECONNRESET";
     error_message := "connection terminated";
     error_reason := None |}.

(** The ORM manager cannot hand out the repository. *)
Definition no_repository : World :=
  {| getRepository := fun _ => Raise connection_lost;
     findOne := fun _ _ => Ok (Some Sample.pending_full);
     isThrottled := fun _ _ => false;
     refreshAndSaveTokens := fun account _ => (account, Ok "fresh");
     partialProcessMessageListFetch := fun c _ _ => (Sample.advance c, Ok tt);
     fullProcessMessageListFetch := fun c _ => (Sample.advance c, Ok tt);
     handleDriverException := fun _ _ c _ => (Sample.penalise c, Ok tt);
     codeText := Sample.codeName |}.

(** The full fetch hits the quota, and the failure handler cannot write the
    failure down. *)
Definition handler_down : World :=
  {| getRepository := fun _ => Ok tt;
     findOne := fun _ _ => Ok (Some Sample.pending_full);
     isThrottled := fun _ _ => false;
     refreshAndSaveTokens := fun account _ => (account, Ok "fresh");
     partialProcessMessageListFetch := fun c _ _ => (Sample.advance c, Ok tt);
     fullProcessMessageListFetch := fun c _ => (Sample.advance c, Raise Sample.quota);
     handleDriverException := fun _ _ c _ => (c, Raise connection_lost);
     codeText := Sample.codeName |}.

End Outage.

(** ** Running the job symbolically *)

Ltac unfold_job :=
  unfold handle, guardedWithHandler, guarded, refreshAccessToken,
    refreshErrorTranslator, stageRouter, await,
    call_isThrottled, call_refreshAndSaveTokens, assign_accessToken,
    call_partialProcessMessageListFetch, call_fullProcessMessageListFetch,
    call_handleDriverException, track, log, messageChannel,
    try_catch, bind, ret, throw, settle in *.

(** Replaces a collaborator call whose outcome is known, and runs on. *)
Ltac known_call :=
  match goal with
  | H : ?call = _ |- context [?call] => rewrite H; cbn
  end.

(** Writes every channel object as a record of its fields. *)
Ltac flatten :=
  unfold refreshed, MessageChannel.set_connectedAccount,
    ConnectedAccount.set_accessToken in *;
  cbn in *.

Ltac run_job := unfold_job; flatten; repeat (known_call; flatten).

(** Reads off what an equation between two outcomes says. *)
Ltac outcomes :=
  repeat match goal with
         | H : (_, _) = (_, _) |- _ => inversion H; clear H; subst
         | H : exists _, _ |- _ => destruct H
         | H : _ /\ _ |- _ => destruct H
         end.

(** Splits on the outcome of the next call inside the guarded region. *)
Ltac case_step :=
  match goal with
  | |- context [partialProcessMessageListFetch ?w ?c ?a ?ws] =>
      destruct (partialProcessMessageListFetch w c a ws) as [? [[] | ?]] eqn:?
  | |- context [fullProcessMessageListFetch ?w ?c ?ws] =>
      destruct (fullProcessMessageListFetch w c ws) as [? [[] | ?]] eqn:?
  | |- context [refreshAndSaveTokens ?w ?a ?ws] =>
      destruct (refreshAndSaveTokens w a ws) as [? [? | ?]] eqn:?
  | |- context [isThrottled ?w ?t ?n] =>
      destruct (isThrottled w t n) eqn:?
  | |- context [match error_code ?e with _ => _ end] =>
      destruct (error_code e) as [[] | ? | ] eqn:?
  | |- context [match ?stage with
                | MessageChannelSyncStage.OTHER _ => _
                | _ => _
                end] =>
      is_var stage; destruct stage
  end.

(** Splits on the answer of the failure handler. *)
Ltac case_handler :=
  match goal with
  | |- context [handleDriverException ?w ?e ?step ?c ?ws] =>
      destruct (handleDriverException w e step c ws) as [? [[] | ?]] eqn:?
  end.

Ltac explore_steps := repeat (case_step; flatten; outcomes; flatten).

Ltac explore := repeat ((known_call || case_step || case_handler); flatten).

Lemma handle_found (w : World) (data : JobData.t) (loaded : MessageChannel.t) :
  looked_up w data (Some loaded) ->
  handle w data =
  {| events := trace (fst (guardedWithHandler w (JobData.workspaceId data) (at_guard data loaded)));
     settled := settle (snd (guardedWithHandler w (JobData.workspaceId data) (at_guard data loaded)));
     entity := Some (channel (fst (guardedWithHandler w (JobData.workspaceId data) (at_guard data loaded)))) |}.
Proof.
  intros [Hrepo Hfind]. unfold handle. rewrite Hrepo, Hfind.
  unfold at_guard, lookup, jobTriggered. cbn [app].
  destruct (guardedWithHandler _ _ _). reflexivity.
Qed.

(** C5: when the channel lookup finds nothing, [handle] emits the
    channel-not-found event, carrying the channel id and the workspace id of
    the job, once, and resolves; it makes no throttle check, no credential
    refresh, no fetch and no call to the failure handler. *)
Theorem handle_channel_not_found (w : World) (data : JobData.t) :
  looked_up w data None ->
  events (handle w data) = lookup data ++ [Track (channelNotFound data)] /\
  settled (handle w data) = Resolved /\
  entity (handle w data) = None /\
  count (is_event "message_list_fetch_job.error.message_channel_not_found")
        (events (handle w data)) = 1 /\
  count is_throttle_check (events (handle w data)) = 0 /\
  count is_refresh (events (handle w data)) = 0 /\
  count is_fetch (events (handle w data)) = 0 /\
  count is_failure_handler (events (handle w data)) = 0.
Proof.
  intros [Hrepo Hfind]. unfold handle. rewrite Hrepo, Hfind. cbn.
  repeat split; reflexivity.
Qed.

Lemma handle_channel_not_found_witness :
  events (handle Sample.missing Sample.data)
  = lookup Sample.data ++ [Track (channelNotFound Sample.data)].
Proof.
  refine (proj1 (handle_channel_not_found Sample.missing Sample.data _)).
  split; reflexivity.
Defined.

(** C4: when the channel is found and the throttle guard says skip, [handle]
    resolves after the guard: the job-triggered event is the only event, the
    channel object is as it was loaded, and there is no credential refresh,
    no fetch and no call to the failure handler. *)
Theorem handle_throttled (w : World) (data : JobData.t) (loaded : MessageChannel.t) :
  looked_up w data (Some loaded) ->
  isThrottled w (MessageChannel.syncStageStartedAt loaded)
                (MessageChannel.throttleFailureCount loaded) = true ->
  events (handle w data) = lookup data ++ [guardCheck loaded] /\
  settled (handle w data) = Resolved /\
  entity (handle w data) = Some loaded /\
  filter is_track (events (handle w data)) = [Track (jobTriggered data)] /\
  count is_refresh (events (handle w data)) = 0 /\
  count is_assignment (events (handle w data)) = 0 /\
  count is_fetch (events (handle w data)) = 0 /\
  count is_failure_handler (events (handle w data)) = 0.
Proof.
  intros Hfound Hskip. rewrite (handle_found w data loaded Hfound).
  run_job. repeat split; reflexivity.
Qed.

Lemma handle_throttled_witness :
  entity (handle Sample.cooling_down Sample.data) = Some Sample.pending_partial.
Proof.
  refine (proj1 (proj2 (proj2
            (handle_throttled Sample.cooling_down Sample.data Sample.pending_partial _ _)))).
  - split; reflexivity.
  - reflexivity.
Defined.

(** C7: when the invocation reaches the stage router with a sync stage that
    is neither of the two pending list-fetch stages, the router does nothing:
    the trace ends with the assignment of the refreshed token, no event but
    the job-triggered one is emitted, no fetch strategy and no failure
    handler is called, and [handle] resolves. *)
Theorem handle_other_stage
    (w : World) (data : JobData.t) (loaded : MessageChannel.t)
    (account' : ConnectedAccount.t) (token tag : string) :
  reaches_router w data loaded account' token ->
  MessageChannel.syncStage loaded = MessageChannelSyncStage.OTHER tag ->
  events (handle w data) = before_router data loaded token /\
  settled (handle w data) = Resolved /\
  entity (handle w data) = Some (refreshed loaded account' token) /\
  filter is_track (events (handle w data)) = [Track (jobTriggered data)] /\
  count is_fetch (events (handle w data)) = 0 /\
  count is_failure_handler (events (handle w data)) = 0.
Proof.
  intros [[Hfound Hpass] Hrefresh] Hstage.
  rewrite (handle_found w data loaded Hfound).
  run_job. repeat split; reflexivity.
Qed.

Lemma handle_other_stage_witness :
  settled (handle Sample.idle Sample.data) = Resolved.
Proof.
  refine (proj1 (proj2
            (handle_other_stage
               Sample.idle Sample.data Sample.failed Sample.account "fresh" "FAILED" _ _))).
  - repeat split; reflexivity.
  - reflexivity.
Defined.

(** C3: an invocation that reaches the stage router runs one branch.  With
    the partial stage pending, the started and completed events of the
    partial fetch bracket the one call of the partial-fetch strategy (on the
    channel, its connected account and the workspace id), and the full-fetch
    strategy is not called; when the strategy throws, the started event is
    followed by the call and by the hand-over of the thrown error to the
    failure handler, with no completed event.  The same holds for the full
    stage, with the full-fetch events and strategy (on the channel and the
    workspace id). *)
Theorem stage_router_brackets
    (w : World) (data : JobData.t) (loaded : MessageChannel.t)
    (account' : ConnectedAccount.t) (token : string) :
  reaches_router w data loaded account' token ->
  (MessageChannel.syncStage loaded
   = MessageChannelSyncStage.PARTIAL_MESSAGE_LIST_FETCH_PENDING ->
   (forall c',
       partial_fetch_gives w data (refreshed loaded account' token) c' (Ok tt) ->
       events (handle w data)
       = before_router data loaded token ++
         [ Track (lifecycle "partial_message_list_fetch.started"
                            (JobData.workspaceId data) (refreshed loaded account' token));
           partialCall data (refreshed loaded account' token);
           Track (lifecycle "partial_message_list_fetch.completed"
                            (JobData.workspaceId data) c') ] /\
       settled (handle w data) = Resolved) /\
   (forall c' error,
       partial_fetch_gives w data (refreshed loaded account' token) c' (Raise error) ->
       events (handle w data)
       = before_router data loaded token ++
         [ Track (lifecycle "partial_message_list_fetch.started"
                            (JobData.workspaceId data) (refreshed loaded account' token));
           partialCall data (refreshed loaded account' token);
           forwarded data (Thrown error) c' ] /\
       settled (handle w data) = after_handler (snd (handled w data (Thrown error) c'))) /\
   count is_partial_fetch (events (handle w data)) = 1 /\
   count is_full_fetch (events (handle w data)) = 0 /\
   count (is_event "full_message_list_fetch.started") (events (handle w data)) = 0 /\
   count (is_event "full_message_list_fetch.completed") (events (handle w data)) = 0) /\
  (MessageChannel.syncStage loaded
   = MessageChannelSyncStage.FULL_MESSAGE_LIST_FETCH_PENDING ->
   (forall c',
       full_fetch_gives w data (refreshed loaded account' token) c' (Ok tt) ->
       events (handle w data)
       = before_router data loaded token ++
         [ Track (lifecycle "full_message_list_fetch.started"
                            (JobData.workspaceId data) (refreshed loaded account' token));
           fullCall data (refreshed loaded account' token);
           Track (lifecycle "full_message_list_fetch.completed"
                            (JobData.workspaceId data) c') ] /\
       settled (handle w data) = Resolved) /\
   (forall c' error,
       full_fetch_gives w data (refreshed loaded account' token) c' (Raise error) ->
       events (handle w data)
       = before_router data loaded token ++
         [ Track (lifecycle "full_message_list_fetch.started"
                            (JobData.workspaceId data) (refreshed loaded account' token));
           fullCall data (refreshed loaded account' token);
           forwarded data (Thrown error) c' ] /\
       settled (handle w data) = after_handler (snd (handled w data (Thrown error) c'))) /\
   count is_full_fetch (events (handle w data)) = 1 /\
   count is_partial_fetch (events (handle w data)) = 0 /\
   count (is_event "partial_message_list_fetch.started") (events (handle w data)) = 0 /\
   count (is_event "partial_message_list_fetch.completed") (events (handle w data)) = 0).
Proof.
  intros [[Hfound Hpass] Hrefresh].
  rewrite (handle_found w data loaded Hfound). clear Hfound.
  unfold partial_fetch_gives, full_fetch_gives, handled.
  destruct loaded as [id accountId stage startedAt failures account folders].
  split; intros Hstage; cbn in Hstage; subst stage.
  - repeat split; run_job; explore; reflexivity.
  - repeat split; run_job; explore; reflexivity.
Qed.

Lemma stage_router_brackets_witness :
  filter is_track (events (handle Sample.partial_run Sample.data))
  = [ Track (jobTriggered Sample.data);
      Track (lifecycle "partial_message_list_fetch.started" "ws-1"
               (refreshed Sample.pending_partial Sample.account "fresh"));
      Track (lifecycle "partial_message_list_fetch.completed" "ws-1"
               (Sample.advance (refreshed Sample.pending_partial Sample.account "fresh"))) ].
Proof.
  assert (Hreach :
            reaches_router
              Sample.partial_run Sample.data Sample.pending_partial Sample.account "fresh")
    by (repeat split; reflexivity).
  rewrite (proj1 (proj1 (proj1 (stage_router_brackets _ _ _ _ _ Hreach) eq_refl)
                        _ eq_refl)).
  reflexivity.
Defined.

(** C2: the inner [catch] is total and never swallows.  When the refresh
    service throws [error], the refresh step throws in turn: a new driver
    exception with the message of [error] and the category of its row
    (temporary network error: TEMPORARY_ERROR; refresh failed or refresh
    token not found: INSUFFICIENT_PERMISSIONS; provider not supported:
    PROVIDER_NOT_SUPPORTED), and for any other code [error] itself, as it
    was thrown.  The access token is not assigned. *)
Theorem refresh_error_translation
    (w : World) (workspaceId : string) (s : Run)
    (account' : ConnectedAccount.t) (error : ErrorObject) :
  refreshAndSaveTokens w (MessageChannel.connectedAccount (channel s)) workspaceId
  = (account', Raise error) ->
  (error_code error
   = RefreshCode ConnectedAccountRefreshAccessTokenExceptionCode.TEMPORARY_NETWORK_ERROR ->
   snd (refreshAccessToken w workspaceId s)
   = Raise (MessageImportDriverException
              (error_message error) MessageImportDriverExceptionCode.TEMPORARY_ERROR)) /\
  (error_code error
   = RefreshCode ConnectedAccountRefreshAccessTokenExceptionCode.REFRESH_ACCESS_TOKEN_FAILED \/
   error_code error
   = RefreshCode ConnectedAccountRefreshAccessTokenExceptionCode.REFRESH_TOKEN_NOT_FOUND ->
   snd (refreshAccessToken w workspaceId s)
   = Raise (MessageImportDriverException
              (error_message error)
              MessageImportDriverExceptionCode.INSUFFICIENT_PERMISSIONS)) /\
  (error_code error
   = RefreshCode ConnectedAccountRefreshAccessTokenExceptionCode.PROVIDER_NOT_SUPPORTED ->
   snd (refreshAccessToken w workspaceId s)
   = Raise (MessageImportDriverException
              (error_message error)
              MessageImportDriverExceptionCode.PROVIDER_NOT_SUPPORTED)) /\
  ((forall code, error_code error <> RefreshCode code) ->
   snd (refreshAccessToken w workspaceId s) = Raise (Thrown error)) /\
  (exists raised, snd (refreshAccessToken w workspaceId s) = Raise raised) /\
  channel (fst (refreshAccessToken w workspaceId s))
  = MessageChannel.set_connectedAccount account' (channel s).
Proof.
  intros Hrefresh. destruct s as [c t].
  repeat split.
  - intros Hcode. run_job. reflexivity.
  - intros [Hcode | Hcode]; run_job; reflexivity.
  - intros Hcode. run_job. reflexivity.
  - intros Hcode. run_job.
    destruct (error_code error) as [code | text | ]; [| reflexivity | reflexivity].
    contradiction (Hcode code). reflexivity.
  - run_job. explore; eexists; reflexivity.
  - run_job. explore; reflexivity.
Qed.

Lemma refresh_error_translation_witness :
  snd (refreshAccessToken Sample.offline "ws-1" (at_refresh Sample.data Sample.pending_full))
  = Raise (MessageImportDriverException
             "socket hang up" MessageImportDriverExceptionCode.TEMPORARY_ERROR).
Proof.
  refine (proj1 (refresh_error_translation
                   Sample.offline "ws-1" (at_refresh Sample.data Sample.pending_full)
                   Sample.account Sample.network_down _) _);
    reflexivity.
Defined.

(** C6: when the refresh service throws with code REFRESH_ACCESS_TOKEN_FAILED
    or REFRESH_TOKEN_NOT_FOUND, the insufficient-permissions event, with the
    workspace id, the connected-account id and the id of the channel, and
    the message made of the code and the reason of the error, is emitted
    once, after the refresh call and before the new INSUFFICIENT_PERMISSIONS
    exception reaches the outer [catch].  With any other code the event is
    not emitted. *)
Theorem insufficient_permissions_event
    (w : World) (data : JobData.t) (loaded : MessageChannel.t)
    (account' : ConnectedAccount.t) (error : ErrorObject) :
  passes_guard w data loaded ->
  refresh_fails w data loaded account' error ->
  (forall code,
      error_code error = RefreshCode code ->
      lacks_permission (RefreshCode code) = true ->
      events (handle w data)
      = lookup data ++
        [ guardCheck loaded;
          refreshCall data loaded;
          Track (insufficientPermissions w (JobData.workspaceId data) loaded code error);
          forwarded data
            (MessageImportDriverException
               (error_message error)
               MessageImportDriverExceptionCode.INSUFFICIENT_PERMISSIONS)
            (MessageChannel.set_connectedAccount account' loaded) ]) /\
  count (is_event "refresh_token.error.insufficient_permissions") (events (handle w data))
  = (if lacks_permission (error_code error) then 1 else 0).
Proof.
  intros [Hfound Hpass] Hrefresh. unfold refresh_fails in Hrefresh.
  rewrite (handle_found w data loaded Hfound). clear Hfound.
  destruct loaded as [id accountId stage startedAt failures account folders].
  split.
  - intros code Hcode Hlacks.
    destruct code; try discriminate Hlacks; run_job; explore; reflexivity.
  - run_job. explore; reflexivity.
Qed.

Lemma insufficient_permissions_event_witness :
  filter (is_event "refresh_token.error.insufficient_permissions")
    (events (handle Sample.revoked Sample.data))
  = [ Track {| TrackInput.eventName := "refresh_token.error.insufficient_permissions";
               TrackInput.workspaceId := "ws-1";
               TrackInput.connectedAccountId := Some "acc-1";
               TrackInput.messageChannelId := Some "chan-1";
               TrackInput.message := Some "REFRESH_ACCESS_TOKEN_FAILED: invalid_grant" |} ].
Proof.
  assert (Hpass : passes_guard Sample.revoked Sample.data Sample.pending_full)
    by (repeat split; reflexivity).
  rewrite (proj1 (insufficient_permissions_event
                    _ _ _ Sample.account Sample.token_revoked Hpass eq_refl)
                 ConnectedAccountRefreshAccessTokenExceptionCode.REFRESH_ACCESS_TOKEN_FAILED
                 eq_refl eq_refl).
  reflexivity.
Defined.

(** C1: an error that surfaces from the credential refresh (step 4) or from
    the stage dispatch (step 5) is caught by the outer [catch] and handed to
    [handleDriverException] once, as it is, with the step marker
    FULL_OR_PARTIAL_MESSAGE_LIST_FETCH, the channel object and the workspace
    id.  That call is the last thing [handle] does: nothing is retried, and
    [handle] settles as the failure handler does. *)
Theorem errors_reach_failure_handler
    (w : World) (data : JobData.t) (loaded : MessageChannel.t)
    (s : Run) (error : Exception) :
  passes_guard w data loaded ->
  (refreshAccessToken w (JobData.workspaceId data) (at_refresh data loaded)
   = (s, Raise error) \/
   exists s4,
     refreshAccessToken w (JobData.workspaceId data) (at_refresh data loaded)
     = (s4, Ok tt) /\
     stageRouter w (JobData.workspaceId data) s4 = (s, Raise error)) ->
  events (handle w data) = trace s ++ [forwarded data error (channel s)] /\
  entity (handle w data) = Some (fst (handled w data error (channel s))) /\
  settled (handle w data) = after_handler (snd (handled w data error (channel s))) /\
  count is_failure_handler (events (handle w data)) = 1 /\
  count is_refresh (events (handle w data)) = 1 /\
  count is_fetch (events (handle w data)) <= 1.
Proof.
  intros [Hfound Hpass] Hsteps.
  rewrite (handle_found w data loaded Hfound). clear Hfound.
  unfold handled, at_refresh, guardCheck in *.
  destruct loaded as [id accountId stage startedAt failures account folders].
  destruct Hsteps as [Hstep4 | [s4 [Hstep4 Hstep5]]].
  - unfold_job. flatten. rewrite Hpass. flatten.
    explore_steps; explore; repeat split; auto.
  - unfold_job. flatten. rewrite Hpass. flatten.
    explore_steps; explore; repeat split; auto.
Qed.

Lemma errors_reach_failure_handler_witness :
  filter is_failure_handler (events (handle Sample.full_run_over_quota Sample.data))
  = [ forwarded Sample.data (Thrown Sample.quota)
        (Sample.advance (refreshed Sample.pending_full Sample.account "fresh")) ].
Proof.
  assert (Hpass : passes_guard Sample.full_run_over_quota Sample.data Sample.pending_full)
    by (repeat split; reflexivity).
  rewrite (proj1 (errors_reach_failure_handler
                    Sample.full_run_over_quota Sample.data Sample.pending_full
                    (fst (stageRouter Sample.full_run_over_quota "ws-1"
                            (fst (refreshAccessToken Sample.full_run_over_quota "ws-1"
                                    (at_refresh Sample.data Sample.pending_full)))))
                    (Thrown Sample.quota)
                    Hpass
                    (or_intror
                       (ex_intro _
                          (fst (refreshAccessToken Sample.full_run_over_quota "ws-1"
                                  (at_refresh Sample.data Sample.pending_full)))
                          (conj eq_refl eq_refl))))).
  reflexivity.
Defined.

(** ** The frame of the orchestrator *)

Lemma same_but_accessToken_refl (c : MessageChannel.t) : same_but_accessToken c c.
Proof. repeat split. Qed.

Lemma same_but_accessToken_trans (c1 c2 c3 : MessageChannel.t) :
  same_but_accessToken c1 c2 -> same_but_accessToken c2 c3 -> same_but_accessToken c1 c3.
Proof.
  unfold same_but_accessToken.
  intros (H1 & H2 & H3 & H4 & H5 & H6 & H7 & H8) (K1 & K2 & K3 & K4 & K5 & K6 & K7 & K8).
  repeat split; congruence.
Qed.

(** With inert collaborators, no entry of a trace changes anything but the
    access token. *)
Lemma effect_inert (w : World) (a : Action) (c : MessageChannel.t) :
  inert w -> same_but_accessToken c (effect w a c).
Proof.
  intros (Hrefresh & Hpartial & Hfull & Hhandler).
  destruct a; cbn;
    rewrite ?Hrefresh, ?Hpartial, ?Hfull, ?Hhandler;
    repeat split.
Qed.

Lemma contents_after_inert (w : World) (t : list Action) :
  inert w -> forall c, same_but_accessToken c (contents_after w t c).
Proof.
  intros Hinert. induction t as [| a t IH]; intros c.
  - apply same_but_accessToken_refl.
  - apply same_but_accessToken_trans with (effect w a c).
    + now apply effect_inert.
    + apply IH.
Qed.

(** The trace of an invocation accounts for the contents of the channel
    object it leaves behind. *)
Lemma entity_is_contents_after (w : World) (data : JobData.t) (loaded : MessageChannel.t) :
  looked_up w data (Some loaded) ->
  entity (handle w data) = Some (contents_after w (events (handle w data)) loaded).
Proof.
  intros Hfound. rewrite (handle_found w data loaded Hfound). clear Hfound.
  destruct loaded as [id accountId stage startedAt failures account folders].
  unfold contents_after. unfold_job. flatten.
  explore; reflexivity.
Qed.

(** C8: in any invocation [handle] itself writes to the channel object at
    most once, and what it writes is the access token of the connected
    account, with the token the refresh service resolved to; the write
    leaves every other field of the channel and of the account as it was.
    The contents the object ends with are those it was loaded with, changed
    by what the collaborators did to it and by that assignment; with
    collaborators that leave the object alone, every field but the access
    token is as loaded. *)
Theorem handle_frame (w : World) (data : JobData.t) :
  count is_assignment (events (handle w data)) <= 1 /\
  (forall token,
      In (AssignAccessToken token) (events (handle w data)) ->
      exists loaded account', reaches_router w data loaded account' token) /\
  (forall token c, same_but_accessToken c (effect w (AssignAccessToken token) c)) /\
  (forall loaded,
      looked_up w data (Some loaded) ->
      entity (handle w data) = Some (contents_after w (events (handle w data)) loaded) /\
      (inert w ->
       same_but_accessToken loaded (contents_after w (events (handle w data)) loaded))).
Proof.
  split; [| split; [| split; [intros token c; repeat split |]]].
  - unfold handle.
    destruct (getRepository w "messageChannel") as [[] | e]; [| cbn; lia].
    destruct (findOne w _ _) as [[loaded |] | e]; [| cbn; lia | cbn; lia].
    destruct loaded as [id accountId stage startedAt failures account folders].
    unfold_job. flatten. explore; cbn; lia.
  - intros token. unfold handle.
    destruct (getRepository w "messageChannel") as [[] | e] eqn:Hrepo;
      [| cbn; intuition discriminate].
    destruct (findOne w _ _) as [[loaded |] | e] eqn:Hfind;
      [| cbn; intuition discriminate | cbn; intuition discriminate].
    destruct loaded as [id accountId stage startedAt failures account folders].
    unfold_job. flatten.
    explore; intros Hin; cbn in Hin;
      repeat (destruct Hin as [Hin | Hin]; try discriminate Hin);
      try contradiction;
      inversion Hin; subst;
      eexists; eexists; repeat split; eassumption.
  - intros loaded Hfound. split.
    + now apply entity_is_contents_after.
    + intros Hinert. now apply contents_after_inert.
Qed.

Lemma handle_frame_witness :
  entity (handle Sample.partial_run Sample.data)
  = Some (contents_after Sample.partial_run
            (events (handle Sample.partial_run Sample.data)) Sample.pending_partial) /\
  count is_assignment (events (handle Sample.partial_run Sample.data)) = 1.
Proof.
  split.
  - refine (proj1 (proj2 (proj2 (proj2 (handle_frame Sample.partial_run Sample.data)))
                     Sample.pending_partial _)).
    split; reflexivity.
  - reflexivity.
Defined.

(** C10: whenever [handleDriverException] is called, the store had resolved
    the lookup (with the relations [connectedAccount] and [messageFolders])
    to a channel, and the channel argument of the call is that object, with
    the contents it has by then; the call is the last entry of the trace.
    When the lookup resolves to nothing, the failure handler is not
    called. *)
Theorem failure_handler_gets_loaded_channel (w : World) (data : JobData.t) :
  (forall error step c workspaceId,
      In (HandleDriverException error step c workspaceId) (events (handle w data)) ->
      exists loaded rest,
        looked_up w data (Some loaded) /\
        events (handle w data)
        = lookup data ++ rest ++ [HandleDriverException error step c workspaceId] /\
        c = contents_after w rest loaded) /\
  (looked_up w data None ->
   count is_failure_handler (events (handle w data)) = 0).
Proof.
  split.
  - intros error step c workspaceId. unfold handle.
    destruct (getRepository w "messageChannel") as [[] | e] eqn:Hrepo;
      [| cbn; intuition discriminate].
    destruct (findOne w _ _) as [[loaded |] | e] eqn:Hfind;
      [| cbn; intuition discriminate | cbn; intuition discriminate].
    intros Hin. exists loaded. revert Hin.
    destruct loaded as [id accountId stage startedAt failures account folders].
    unfold_job. flatten.
    explore; intros Hin; cbn in Hin;
      repeat (destruct Hin as [Hin | Hin]; try discriminate Hin);
      try contradiction;
      inversion Hin; subst;
      match goal with
      | |- exists rest, _ /\ ?t = _ /\ _ => exists (removelast (skipn 3 t))
      end;
      (split; [split; assumption |]);
      (split; [reflexivity |]);
      unfold contents_after; flatten; explore; reflexivity.
  - intros [Hrepo Hfind]. unfold handle. rewrite Hrepo, Hfind. reflexivity.
Qed.

Lemma failure_handler_gets_loaded_channel_witness :
  count is_failure_handler (events (handle Sample.missing Sample.data)) = 0.
Proof.
  refine (proj2 (failure_handler_gets_loaded_channel Sample.missing Sample.data) _).
  split; reflexivity.
Defined.

(** ** Sample runs *)

Example partial_run_trace :
  events (handle Sample.partial_run Sample.data)
  = [ Track (jobTriggered Sample.data);
      GetRepository "messageChannel";
      FindOne "chan-1" ["connectedAccount"; "messageFolders"];
      IsThrottled 1000%Z 2;
      RefreshAndSaveTokens Sample.account "ws-1";
      AssignAccessToken "fresh";
      Track (lifecycle "partial_message_list_fetch.started" "ws-1"
               (refreshed Sample.pending_partial Sample.account "fresh"));
      PartialProcessMessageListFetch
        (refreshed Sample.pending_partial Sample.account "fresh")
        (ConnectedAccount.set_accessToken "fresh" Sample.account)
        "ws-1";
      Track (lifecycle "partial_message_list_fetch.completed" "ws-1"
               (Sample.advance (refreshed Sample.pending_partial Sample.account "fresh"))) ].
Proof. reflexivity. Qed.

Example offline_run_trace :
  events (handle Sample.offline Sample.data)
  = [ Track (jobTriggered Sample.data);
      GetRepository "messageChannel";
      FindOne "chan-1" ["connectedAccount"; "messageFolders"];
      IsThrottled 1000%Z 2;
      RefreshAndSaveTokens Sample.account "ws-1";
      HandleDriverException
        (MessageImportDriverException
           "socket hang up" MessageImportDriverExceptionCode.TEMPORARY_ERROR)
        MessageImportSyncStep.FULL_OR_PARTIAL_MESSAGE_LIST_FETCH
        Sample.pending_full "ws-1" ].
Proof. reflexivity. Qed.

Example offline_run_entity :
  entity (handle Sample.offline Sample.data) = Some (Sample.penalise Sample.pending_full) /\
  settled (handle Sample.offline Sample.data) = Resolved.
Proof. split; reflexivity. Qed.

Example unclassified_refresh_error_passes_through :
  filter is_failure_handler
    (events (handle (Sample.world (Some Sample.pending_full) false
                                  (Raise Sample.quota) (Ok tt))
                    Sample.data))
  = [ HandleDriverException
        (Thrown Sample.quota)
        MessageImportSyncStep.FULL_OR_PARTIAL_MESSAGE_LIST_FETCH
        Sample.pending_full "ws-1" ].
Proof. reflexivity. Qed.

(** ** Every invocation *)

(** Walks through every path of [handle]. *)
Ltac every_path w data :=
  unfold handle;
  destruct (getRepository w "messageChannel") as [[] | ?] eqn:?;
  [ destruct (findOne w (JobData.messageChannelId data) _)
      as [[[id accountId stage startedAt failures account folders] |] | ?] eqn:?;
    [ unfold_job; flatten; explore | | ]
  | ];
  cbn.

(** X1: whatever happens later, an invocation starts with the job-triggered
    event, carrying the channel id and the workspace id of the job data,
    followed by the request for the repository; the event is emitted once. *)
Theorem job_triggered_first (w : World) (data : JobData.t) :
  (exists rest,
      events (handle w data)
      = Track (jobTriggered data) :: GetRepository "messageChannel" :: rest) /\
  count (is_event "message_list_fetch_job.triggered") (events (handle w data)) = 1.
Proof.
  every_path w data; (split; [eexists; reflexivity | reflexivity]).
Qed.

(** X2: an error the store throws, from [getRepository] or from [findOne],
    is outside the [try]: [handle] rejects with that very error, the failure
    handler is not called, the throttle guard is not consulted and no
    channel-not-found event is emitted. *)
Theorem store_failure_escapes (w : World) (data : JobData.t) (e : ErrorObject) :
  store_throws w data e ->
  settled (handle w data) = Rejected (Thrown e) /\
  entity (handle w data) = None /\
  count is_failure_handler (events (handle w data)) = 0 /\
  count is_throttle_check (events (handle w data)) = 0 /\
  count (is_event "message_list_fetch_job.error.message_channel_not_found")
        (events (handle w data)) = 0 /\
  filter is_track (events (handle w data)) = [Track (jobTriggered data)].
Proof.
  intros [Hrepo | [Hrepo Hfind]]; unfold handle.
  - rewrite Hrepo. repeat split.
  - rewrite Hrepo, Hfind. repeat split.
Qed.

Lemma store_failure_escapes_witness :
  settled (handle Outage.no_repository Sample.data)
  = Rejected (Thrown Outage.connection_lost).
Proof.
  refine (proj1 (store_failure_escapes
                   Outage.no_repository Sample.data Outage.connection_lost _)).
  left. reflexivity.
Defined.

(** Picks the entry of an explicit trace that matches. *)
Ltac pick_entry := cbn; repeat first [left; reflexivity | right].

(** X3: [handle] rejects in three ways only, each time with the object a
    collaborator threw: [getRepository] threw it, [findOne] threw it, or the
    failure handler threw it when the outer [catch] handed it an error. *)
Theorem handle_rejects_only_with (w : World) (data : JobData.t) (x : Exception) :
  settled (handle w data) = Rejected x ->
  exists e,
    x = Thrown e /\
    (getRepository w "messageChannel" = Raise e \/
     findOne w (JobData.messageChannelId data) ["connectedAccount"; "messageFolders"]
     = Raise e \/
     exists error c,
       In (forwarded data error c) (events (handle w data)) /\
       snd (handled w data error c) = Raise e).
Proof.
  unfold handled, forwarded.
  every_path w data; intros Hsettled; try discriminate Hsettled;
    inversion Hsettled; subst; eexists; (split; [reflexivity |]); auto;
    right; right; eexists; eexists; (split; [pick_entry |]);
    flatten; explore; reflexivity.
Qed.

Lemma handle_rejects_only_with_witness :
  exists e,
    Thrown Outage.connection_lost = Thrown e /\
    (getRepository Outage.handler_down "messageChannel" = Raise e \/
     findOne Outage.handler_down (JobData.messageChannelId Sample.data)
       ["connectedAccount"; "messageFolders"]
     = Raise e \/
     exists error c,
       In (forwarded Sample.data error c) (events (handle Outage.handler_down Sample.data)) /\
       snd (handled Outage.handler_down Sample.data error c) = Raise e).
Proof.
  apply (handle_rejects_only_with Outage.handler_down Sample.data).
  reflexivity.
Defined.

(** X4: when the store resolves and the failure handler resolves whatever it
    is handed, [handle] resolves, whatever the refresh service and the fetch
    strategies throw. *)
Theorem handle_resolves_when_handler_does
    (w : World) (data : JobData.t) (found : option MessageChannel.t) :
  looked_up w data found ->
  handler_resolves w ->
  settled (handle w data) = Resolved.
Proof.
  intros [Hrepo Hfind] Hhandler.
  every_path w data; try discriminate; try reflexivity;
    match goal with
    | H : handleDriverException ?w ?error ?step ?c ?ws = (_, Raise _) |- _ =>
        pose proof (Hhandler error step c ws) as Hresolves;
        rewrite H in Hresolves; discriminate Hresolves
    end.
Qed.

Lemma handle_resolves_when_handler_does_witness :
  settled (handle Sample.full_run_over_quota Sample.data) = Resolved.
Proof.
  refine (handle_resolves_when_handler_does
            Sample.full_run_over_quota Sample.data (Some Sample.pending_full) _ _).
  - split; reflexivity.
  - intros error step c workspaceId. reflexivity.
Defined.

Lemma gated_sound (p q : Action -> bool) (t : list Action) :
  forall seen,
    gated p q seen t = true ->
    forall before a after,
      t = before ++ a :: after -> q a = true -> seen || existsb p before = true.
Proof.
  induction t as [| x rest IH]; intros seen Hgated before a after Hsplit Hq.
  - destruct before; discriminate Hsplit.
  - cbn in Hgated. apply andb_prop in Hgated. destruct Hgated as [Hhere Hrest].
    destruct before as [| b before'].
    + cbn in Hsplit. inversion Hsplit; subst.
      rewrite Hq in Hhere. cbn in Hhere. rewrite Hhere. reflexivity.
    + cbn in Hsplit. inversion Hsplit; subst.
      specialize (IH _ Hrest before' a after eq_refl Hq).
      cbn. rewrite orb_assoc. exact IH.
Qed.

Lemma gated_only_after (p q : Action -> bool) (t : list Action) :
  gated p q false t = true -> only_after p q t.
Proof.
  intros Hgated before a after Hsplit Hq.
  exact (gated_sound p q t false Hgated before a after Hsplit Hq).
Qed.

(** X5: the stations of [handle] gate one another, in the order of the
    trace.  In any invocation a call of the refresh service comes after the
    call of the throttle guard, the assignment of the token after a call of
    the refresh service, a call of a fetch strategy after the assignment,
    and a call of the failure handler after a call of the refresh service;
    and each of the five happens at most once. *)
Theorem stations_gate_one_another (w : World) (data : JobData.t) :
  only_after is_throttle_check is_refresh (events (handle w data)) /\
  only_after is_refresh is_assignment (events (handle w data)) /\
  only_after is_assignment is_fetch (events (handle w data)) /\
  only_after is_refresh is_failure_handler (events (handle w data)) /\
  count is_throttle_check (events (handle w data)) <= 1 /\
  count is_refresh (events (handle w data)) <= 1 /\
  count is_assignment (events (handle w data)) <= 1 /\
  count is_fetch (events (handle w data)) <= 1 /\
  count is_failure_handler (events (handle w data)) <= 1.
Proof.
  repeat split; try apply gated_only_after;
    every_path w data; (reflexivity || lia).
Qed.

(** X6: when the refresh service throws, the run stops there, whatever the
    sync stage: the access token is not assigned, no fetch strategy is
    called, no lifecycle event is emitted, and the failure handler is called
    once, on the channel object as the refresh service left it. *)
Theorem refresh_failure_stops_the_run
    (w : World) (data : JobData.t) (loaded : MessageChannel.t)
    (account' : ConnectedAccount.t) (error : ErrorObject) :
  passes_guard w data loaded ->
  refresh_fails w data loaded account' error ->
  count is_assignment (events (handle w data)) = 0 /\
  count is_fetch (events (handle w data)) = 0 /\
  count is_lifecycle (events (handle w data)) = 0 /\
  count is_failure_handler (events (handle w data)) = 1 /\
  (forall x step c workspaceId,
      In (HandleDriverException x step c workspaceId) (events (handle w data)) ->
      c = MessageChannel.set_connectedAccount account' loaded).
Proof.
  intros [Hfound Hpass] Hrefresh. unfold refresh_fails in Hrefresh.
  rewrite (handle_found w data loaded Hfound). clear Hfound.
  destruct loaded as [id accountId stage startedAt failures account folders].
  run_job.
  explore; repeat split; intros x step c workspaceId Hin; cbn in Hin;
    repeat (destruct Hin as [Hin | Hin]; try discriminate Hin);
    try contradiction; inversion Hin; reflexivity.
Qed.

Lemma refresh_failure_stops_the_run_witness :
  count is_fetch (events (handle Sample.offline Sample.data)) = 0.
Proof.
  refine (proj1 (proj2 (refresh_failure_stops_the_run
                          Sample.offline Sample.data Sample.pending_full
                          Sample.account Sample.network_down _ _))).
  - repeat split; reflexivity.
  - reflexivity.
Defined.

(** X7: a fetch strategy is called only on a routed channel.  Whenever the
    partial-fetch strategy appears in a trace, the channel was found with
    the partial stage pending, the guard let it through and the refresh
    resolved; the strategy is handed the channel object with the refreshed
    token, the connected account of that very object, and the workspace id
    of the job.  Likewise for the full-fetch strategy and the full stage. *)
Theorem fetch_only_when_routed (w : World) (data : JobData.t) :
  (forall c a workspaceId,
      In (PartialProcessMessageListFetch c a workspaceId) (events (handle w data)) ->
      exists loaded account' token,
        reaches_router w data loaded account' token /\
        MessageChannel.syncStage loaded
        = MessageChannelSyncStage.PARTIAL_MESSAGE_LIST_FETCH_PENDING /\
        c = refreshed loaded account' token /\
        a = MessageChannel.connectedAccount c /\
        ConnectedAccount.accessToken a = token /\
        workspaceId = JobData.workspaceId data) /\
  (forall c workspaceId,
      In (FullProcessMessageListFetch c workspaceId) (events (handle w data)) ->
      exists loaded account' token,
        reaches_router w data loaded account' token /\
        MessageChannel.syncStage loaded
        = MessageChannelSyncStage.FULL_MESSAGE_LIST_FETCH_PENDING /\
        c = refreshed loaded account' token /\
        ConnectedAccount.accessToken (MessageChannel.connectedAccount c) = token /\
        workspaceId = JobData.workspaceId data).
Proof.
  split.
  - intros c a workspaceId.
    every_path w data; intros Hin;
      repeat (destruct Hin as [Hin | Hin]; try discriminate Hin);
      try contradiction; inversion Hin; subst;
      eexists; eexists; eexists; unfold reaches_router, passes_guard, looked_up;
      repeat split; try eassumption; reflexivity.
  - intros c workspaceId.
    every_path w data; intros Hin;
      repeat (destruct Hin as [Hin | Hin]; try discriminate Hin);
      try contradiction; inversion Hin; subst;
      eexists; eexists; eexists; unfold reaches_router, passes_guard, looked_up;
      repeat split; try eassumption; reflexivity.
Qed.


(** X9: every event and every collaborator call of an invocation that
    carries a workspace id carries the one of the job data. *)
Theorem workspace_id_everywhere (w : World) (data : JobData.t) :
  Forall (carries_workspace (JobData.workspaceId data)) (events (handle w data)).
Proof.
  every_path w data; repeat constructor.
Qed.

(** X10: the refresh service is called only for a channel that was found
    and that the throttle guard let through, and it is handed the connected
    account as loaded, with the workspace id of the job; the guard is
    consulted on the stage start and the failure count as loaded. *)
Theorem refresh_only_after_guard (w : World) (data : JobData.t) :
  (forall account workspaceId,
      In (RefreshAndSaveTokens account workspaceId) (events (handle w data)) ->
      exists loaded,
        passes_guard w data loaded /\
        account = MessageChannel.connectedAccount loaded /\
        workspaceId = JobData.workspaceId data) /\
  (forall startedAt failures,
      In (IsThrottled startedAt failures) (events (handle w data)) ->
      exists loaded,
        looked_up w data (Some loaded) /\
        startedAt = MessageChannel.syncStageStartedAt loaded /\
        failures = MessageChannel.throttleFailureCount loaded).
Proof.
  split.
  - intros account0 workspaceId.
    every_path w data; intros Hin;
      repeat (destruct Hin as [Hin | Hin]; try discriminate Hin);
      try contradiction; inversion Hin; subst;
      eexists; unfold passes_guard, looked_up;
      repeat split; try eassumption; reflexivity.
  - intros startedAt0 failures0.
    every_path w data; intros Hin;
      repeat (destruct Hin as [Hin | Hin]; try discriminate Hin);
      try contradiction; inversion Hin; subst;
      eexists; unfold looked_up;
      repeat split; try eassumption; reflexivity.
Qed.
